(** * Record discovery: [NetworkRecordProvider] of sdk/src/record-provider.ts

  A shallow embedding of the record provider of the SDK and the properties
  of its height-window resolution, its delegation to the network client and
  its failure behaviour.

  The provider is asynchronous TypeScript.  An [async] method is modelled as
  a computation over the state of the network it talks to; it finishes
  either resolved with a value or rejected with the thrown value, and it
  leaves a trace of the calls it made on its collaborators.  [await] is the
  sequencing of that monad: awaiting a rejected promise rethrows. *)

From Stdlib Require Import ZArith.
From stdpp Require Import gmap strings list.

Local Open Scope string_scope.

(** ** JavaScript values *)

Module JS.

(** The numbers the provider handles are block heights and amounts.  The
    code only looks at a number through its truthiness and [typeof], so the
    model keeps the integers (where [-0] is [0]) and [NaN], the two falsy
    cases included. *)
Inductive number : Type :=
| Num (z : Z)
| NaN.

(** [new Error(message)] *)
Record Error : Type := mkError { message : string }.

(** The values a property of a [RecordSearchParams] bag may hold
    ([[key: string]: any]). *)
Inductive value : Type :=
| VUndefined
| VNull
| VBoolean (b : bool)
| VNumber (n : number)
| VString (s : string)
| VObject.

(** ToBoolean, as used by [if (v)] and [v && ...]. *)
Definition truthy (v : value) : bool :=
  match v with
  | VUndefined | VNull => false
  | VBoolean b => b
  | VNumber (Num z) => negb (Z.eqb z 0)
  | VNumber NaN => false
  | VString s => negb (String.eqb s "")
  | VObject => true
  end.

Definition typeof (v : value) : string :=
  match v with
  | VUndefined => "undefined"
  | VNull => "object"
  | VBoolean _ => "boolean"
  | VNumber _ => "number"
  | VString _ => "string"
  | VObject => "object"
  end.

(** Property access [o[k]] on the own properties of an object: a key the
    object does not own reads as [undefined].  The keys an object inherits
    from [Object.prototype] ([constructor], [toString] and the like) are not
    modelled; the provider reads [startHeight] and [endHeight] only. *)
Definition get (o : gmap string value) (k : string) : value :=
  default VUndefined (o !! k).

End JS.
Export JS.

(** [interface RecordSearchParams { [key: string]: any }] *)
Abbreviation RecordSearchParams := (gmap string value).

(** ** Collaborators *)

(** Modelled from the spec: the classes [RecordPlaintext], [PrivateKey] and
  [Account] are imported by record-provider.ts and declared elsewhere; a
  record is identified by its nonce and carries an amount, an account
  exposes the private credential used for record queries. *)
Definition PrivateKey : Type := string.

Record RecordPlaintext : Type := mkRecord {
nonce : string;
microcredits : number
}.

Record Account : Type := mkAccount {
privateKey : PrivateKey
}.

(** What an awaited promise yields: its value, or the value it was rejected
  with.  The provider throws a string in one place and an [Error] in
  another. *)
Inductive thrown : Type :=
| ThrownString (s : string)
| ThrownError (e : Error).

Inductive completion (A : Type) : Type :=
| Resolved (a : A)
| Rejected (t : thrown).
Arguments Resolved {A} a.
Arguments Rejected {A} t.

(** The network client, taken as a parameter: its two methods called by the
  provider, as functions of the state [St] of the network they query.
  [getLatestHeight(): Promise<number | Error>],
  [findUnspentRecords(startHeight, endHeight, privateKey, amounts, _, nonces):
   Promise<Array<RecordPlaintext> | Error>]. *)
Record AleoNetworkClient (St : Type) : Type := mkClient {
getLatestHeight : St -> completion (number + Error) * St;
findUnspentRecords :
  value -> value -> PrivateKey -> list number -> value ->
  option (list string) -> St -> completion (list RecordPlaintext + Error) * St
}.
Arguments mkClient {St} _ _.
Arguments getLatestHeight {St} _ _.
Arguments findUnspentRecords {St} _ _ _ _ _ _ _ _.

(** ** Asynchronous computations with a trace *)

Inductive event : Type :=
| CallGetLatestHeight
| CallFindUnspentRecords (startHeight endHeight : value) (key : PrivateKey)
    (amounts : list number) (program : value) (nonces : option (list string))
| ConsoleError (msg : string) (arg : list RecordPlaintext + Error).

Record run (St A : Type) : Type := mkRun {
  outcome : completion A;
  final : St;
  trace : list event
}.
Arguments mkRun {St A} _ _ _.
Arguments outcome {St A} _.
Arguments final {St A} _.
Arguments trace {St A} _.

Definition Async (St A : Type) : Type := St -> run St A.

Section AsyncMonad.
Context {St : Type}.

Definition ret {A} (a : A) : Async St A :=
  fun s => mkRun (Resolved a) s [].

Definition throw {A} (t : thrown) : Async St A :=
  fun s => mkRun (Rejected t) s [].

Definition bind {A B} (m : Async St A) (k : A -> Async St B) : Async St B :=
  fun s =>
    let r := m s in
    match outcome r with
    | Resolved a =>
        let r' := k a (final r) in
        mkRun (outcome r') (final r') (trace r ++ trace r')
    | Rejected t => mkRun (Rejected t) (final r) (trace r)
    end.

(** [console.error(msg, arg)] *)
Definition console_error (msg : string) (arg : list RecordPlaintext + Error)
  : Async St unit :=
  fun s => mkRun (Resolved tt) s [ConsoleError msg arg].

(** [await this.networkClient.getLatestHeight()] *)
Definition await_getLatestHeight (c : AleoNetworkClient St)
  : Async St (number + Error) :=
  fun s =>
    let '(r, s') := getLatestHeight c s in
    mkRun r s' [CallGetLatestHeight].

(** [await this.networkClient.findUnspentRecords(...)] *)
Definition await_findUnspentRecords (c : AleoNetworkClient St)
    (startHeight endHeight : value) (key : PrivateKey) (amounts : list number)
    (program : value) (nonces : option (list string))
  : Async St (list RecordPlaintext + Error) :=
  fun s =>
    let '(r, s') :=
      findUnspentRecords c startHeight endHeight key amounts program nonces s in
    mkRun r s'
      [CallFindUnspentRecords startHeight endHeight key amounts program nonces].

End AsyncMonad.

Notation "x <~ m ;; k" := (bind m (fun x => k))
  (at level 100, m at next level, right associativity, only parsing).
Notation "m ;;; k" := (bind m (fun _ => k))
  (at level 100, right associativity, only parsing).

(** ** The provider *)

Record NetworkRecordProvider (St : Type) : Type := mkProvider {
  account : Account;
  networkClient : AleoNetworkClient St
}.
Arguments mkProvider {St} _ _.
Arguments account {St} _.
Arguments networkClient {St} _.

Section Provider.
Context {St : Type}.
Implicit Types this : NetworkRecordProvider St.

(** [setAccount(account) { this.account = account; }], lines 147-149. *)
Definition setAccount this (a : Account) : NetworkRecordProvider St :=
  mkProvider a (networkClient this).

(** Lines 180-198 of [findCreditsRecords]: the two local variables
    [startHeight] and [endHeight] start at [0] and the block guarded by
    [if (searchParameters)] updates them.  The block has a name here so that
    statements can speak of the window the query is made with. *)
Definition resolveHeights this (searchParameters : option RecordSearchParams)
  : Async St (value * value) :=
  let startHeight := VNumber (Num 0) in
  let endHeight := VNumber (Num 0) in
  match searchParameters with
  | Some sp =>
      let startHeight :=
        if truthy (get sp "startHeight")
           && String.eqb (typeof (get sp "endHeight")) "number"
        then get sp "startHeight"
        else startHeight in
      if truthy (get sp "endHeight")
         && String.eqb (typeof (get sp "endHeight")) "number"
      then ret (startHeight, get sp "endHeight")
      else
        end_ <~ await_getLatestHeight (networkClient this) ;;
        match end_ with
        | inr e =>
            console_error "Error getting latest height" (inr e) ;;;
            throw (ThrownString "Unable to get current block height")
        | inl h => ret (startHeight, VNumber h)
        end
  | None => ret (startHeight, endHeight)
  end.

(** [findCreditsRecords], lines 179-201: the heights, then line 200. *)
Definition findCreditsRecords this (creditAmounts : list number)
    (unspent : bool) (nonces : option (list string))
    (searchParameters : option RecordSearchParams)
  : Async St (list RecordPlaintext + Error) :=
  heights <~ resolveHeights this searchParameters ;;
  await_findUnspentRecords (networkClient this) (fst heights) (snd heights)
    (privateKey (account this)) creditAmounts VUndefined nonces.

(** [findCreditsRecord], lines 212-219. *)
Definition findCreditsRecord this (creditAmount : number)
    (unspent : bool) (nonces : option (list string))
    (searchParameters : option RecordSearchParams)
  : Async St (RecordPlaintext + Error) :=
  records <~
    findCreditsRecords this [creditAmount] unspent nonces searchParameters ;;
  match records with
  | inl (r :: _) => ret (inl r)
  | _ =>
      console_error "Record not found with error:" records ;;;
      ret (inr (mkError "Record not found"))
  end.

(** [findRecord], lines 224-226. *)
Definition findRecord this (unspent : bool) (nonces : option (list string))
    (searchParameters : option RecordSearchParams)
  : Async St (RecordPlaintext + Error) :=
  throw (ThrownError (mkError "Method not implemented.")).

(** [findRecords], lines 231-233. *)
Definition findRecords this (unspent : bool) (nonces : option (list string))
    (searchParameters : option RecordSearchParams)
  : Async St (list RecordPlaintext + Error) :=
  throw (ThrownError (mkError "Method not implemented.")).

End Provider.

(** [class BlockHeightSearch], lines 255-262: the object with the two
    properties [startHeight] and [endHeight]. *)
Definition BlockHeightSearch (startHeight endHeight : number) : gmap string value :=
  <["startHeight" := VNumber startHeight]>
    (<["endHeight" := VNumber endHeight]> ∅).

(** ** Reading a trace *)

Definition is_lookup (e : event) : bool :=
  match e with CallGetLatestHeight => true | _ => false end.

Definition is_query (e : event) : bool :=
  match e with CallFindUnspentRecords _ _ _ _ _ _ => true | _ => false end.

(** How many times the chain tip was asked for. *)
Definition lookups (t : list event) : nat := length (List.filter is_lookup t).

(** The calls of [findUnspentRecords], in order. *)
Definition queries (t : list event) : list event := List.filter is_query t.

(** The credential a query was made with. *)
Definition uses_key (k : PrivateKey) (e : event) : Prop :=
  match e with
  | CallFindUnspentRecords _ _ k' _ _ _ => k' = k
  | _ => True
  end.

(** The guard of line 188: [endHeight] is taken from the parameters. *)
Definition suppliesEndHeight (sp : gmap string value) : bool :=
  truthy (get sp "endHeight") && String.eqb (typeof (get sp "endHeight")) "number".

(** The value lines 184-186 leave in [startHeight]. *)
Definition chosenStartHeight (sp : gmap string value) : value :=
  if truthy (get sp "startHeight")
     && String.eqb (typeof (get sp "endHeight")) "number"
  then get sp "startHeight"
  else VNumber (Num 0).

(** Assumptions on a network client. *)

(** Its promises are never rejected. *)
Definition never_rejects {St} (c : AleoNetworkClient St) : Prop :=
  (forall s, exists v s', getLatestHeight c s = (Resolved v, s')) /\
  (forall sH eH k a p ns s, exists v s',
      findUnspentRecords c sH eH k a p ns s = (Resolved v, s')).

(** It returns no record whose nonce is in the exclusion list it is given. *)
Definition honours_exclusion {St} (c : AleoNetworkClient St) : Prop :=
  forall sH eH k a p ns s rs s',
    findUnspentRecords c sH eH k a p ns s = (Resolved (inl rs), s') ->
    Forall (fun r => nonce r ∉ default [] ns) rs.

(** The [console.error] calls. *)
Definition is_console (e : event) : bool :=
  match e with ConsoleError _ _ => true | _ => false end.

(** The calls made on the network client, in order. *)
Definition network_calls (t : list event) : list event :=
  List.filter (fun e => is_lookup e || is_query e) t.


(** What a query asks for besides its window. *)
Definition asks_for (k : PrivateKey) (amounts : list number)
    (nonces : option (list string)) (e : event) : Prop :=
  match e with
  | CallFindUnspentRecords _ _ k' a p ns =>
      k' = k /\ a = amounts /\ p = VUndefined /\ ns = nonces
  | _ => True
  end.

(** ** The key locators of the credits program (index file of the SDK) *)

(** [const KEY_STORE = "https://testnet3.parameters.aleo.org/"] *)
Definition KEY_STORE : string := "https://testnet3.parameters.aleo.org/".

(** One entry of [CREDITS_PROGRAM_KEYS]: [{prover: ..., verifier: ...}]. *)
Record KeyLocators : Type := mkKeys {
  prover : string;
  verifier : string
}.

(** [const CREDITS_PROGRAM_KEYS = {...}]: the object literal, its properties
    in the order they are written. *)
Definition CREDITS_PROGRAM_KEYS : list (string * KeyLocators) :=
  [ ("transfer_private",
     mkKeys (KEY_STORE ++ "transfer_private.prover.2a9a6f2")
            (KEY_STORE ++ "transfer_private.verifier.3a59762"));
    ("transfer_private_to_public",
     mkKeys (KEY_STORE ++ "transfer_private_to_public.prover.cf3b952")
            (KEY_STORE ++ "transfer_private_to_public.verifier.3a59762"));
    ("transfer_public",
     mkKeys (KEY_STORE ++ "transfer_public.prover.1117f0a")
            "transfer_public.verifier.5bd459b");
    ("transfer_public_to_private",
     mkKeys (KEY_STORE ++ "transfer_public_to_private.prover.7b763af")
            (KEY_STORE ++ "transfer_public_to_private.verifier.25f6542"));
    ("join",
     mkKeys (KEY_STORE ++ "join.prover.da05baf")
            (KEY_STORE ++ "join.verifier.1489109"));
    ("split",
     mkKeys (KEY_STORE ++ "split.prover.8c585f2")
            (KEY_STORE ++ "split.verifier.8281688"));
    ("fee",
     mkKeys (KEY_STORE ++ "fee.prover.36542ce")
            (KEY_STORE ++ "fee.verifier.2de311b")) ].

(** Property access [CREDITS_PROGRAM_KEYS[name]]. *)
Fixpoint keysOf (table : list (string * KeyLocators)) (name : string)
  : option KeyLocators :=
  match table with
  | [] => None
  | (n, k) :: rest => if String.eqb n name then Some k else keysOf rest name
  end.

(** ** A test double for the network client *)

Module Mock.

(** The state of a simulated network: what the chain-tip lookup answers
    and the records the account can see. *)
Record ledger : Type := mkLedger {
  tip : number + Error;
  visible : list RecordPlaintext
}.

Definition number_eqb (a b : number) : bool :=
  match a, b with
  | Num x, Num y => Z.eqb x y
  | _, _ => false
  end.

Definition excluded (nonces : option (list string)) (r : RecordPlaintext) : bool :=
  existsb (String.eqb (nonce r)) (default [] nonces).

Definition wanted (amounts : list number) (r : RecordPlaintext) : bool :=
  existsb (number_eqb (microcredits r)) amounts.

(** Answers the tip it holds, and every visible record of a requested
    amount that is not excluded. *)
Definition client : AleoNetworkClient ledger :=
  mkClient
    (fun s => (Resolved (tip s), s))
    (fun _ _ _ amounts _ nonces s =>
       (Resolved
          (inl (List.filter
                  (fun r => wanted amounts r && negb (excluded nonces r))
                  (visible s))),
        s)).

Definition alice : Account := mkAccount "APrivateKey1alice".
Definition bob : Account := mkAccount "APrivateKey1bob".

Definition r1 : RecordPlaintext := mkRecord "nonce-1" (Num 5000).
Definition r2 : RecordPlaintext := mkRecord "nonce-2" (Num 5000).

Definition net100 : ledger := mkLedger (inl (Num 100)) [r1; r2].
Definition netDown : ledger := mkLedger (inr (mkError "fetch failed")) [r1; r2].

Definition provider : NetworkRecordProvider ledger := mkProvider alice client.

(** A client whose chain-tip lookup is rejected. *)
Definition unreachable : AleoNetworkClient ledger :=
  mkClient
    (fun s => (Rejected (ThrownError (mkError "connection refused")), s))
    (findUnspentRecords client).

(** A client whose record query answers an [Error]. *)
Definition failing : AleoNetworkClient ledger :=
  mkClient
    (getLatestHeight client)
    (fun _ _ _ _ _ _ s => (Resolved (inr (mkError "insufficient records")), s)).

(** A client whose record query is rejected. *)
Definition dropping : AleoNetworkClient ledger :=
  mkClient
    (getLatestHeight client)
    (fun _ _ _ _ _ _ s => (Rejected (ThrownError (mkError "socket hang up")), s)).

End Mock.

(** ** The height window *)

Section HeightWindow.
Context {St : Type}.
Implicit Types this : NetworkRecordProvider St.
Implicit Types sp : gmap string value.

(** What the guard of line 188 lets through: a number other than [0] and
    [NaN]. *)
Lemma suppliesEndHeight_spec sp :
  suppliesEndHeight sp = true <->
  exists z, get sp "endHeight" = VNumber (Num z) /\ z <> 0%Z.
Proof.
  unfold suppliesEndHeight. split.
  - intros H. apply andb_prop in H as [Ht Hn].
    destruct (get sp "endHeight") as [| |b|[z|]|str|]; simpl in *; try discriminate.
    exists z. split; [reflexivity|].
    intros ->. discriminate.
  - intros (z & -> & Hz). simpl.
    destruct (Z.eqb_spec z 0); [contradiction|reflexivity].
Qed.

(** Without search parameters the window is left at [0, 0] and nothing is
    asked of the network (line 183 skips the block). *)
Lemma resolveHeights_absent this s :
  resolveHeights this None s
  = mkRun (Resolved (VNumber (Num 0), VNumber (Num 0))) s [].
Proof. reflexivity. Qed.

(** With an end height let through by the guard, no lookup is made. *)
Lemma resolveHeights_supplied this sp s :
  suppliesEndHeight sp = true ->
  resolveHeights this (Some sp) s
  = mkRun (Resolved (chosenStartHeight sp, get sp "endHeight")) s [].
Proof.
  unfold suppliesEndHeight, resolveHeights, chosenStartHeight.
  intros ->. reflexivity.
Qed.

(** Otherwise the chain tip is asked for, once, and the three ways the
    answer can come back decide the rest. *)
Lemma resolveHeights_fallback this sp s :
  suppliesEndHeight sp = false ->
  resolveHeights this (Some sp) s
  = match getLatestHeight (networkClient this) s with
    | (Resolved (inl h), s') =>
        mkRun (Resolved (chosenStartHeight sp, VNumber h)) s' [CallGetLatestHeight]
    | (Resolved (inr e), s') =>
        mkRun (Rejected (ThrownString "Unable to get current block height")) s'
          [CallGetLatestHeight; ConsoleError "Error getting latest height" (inr e)]
    | (Rejected t, s') => mkRun (Rejected t) s' [CallGetLatestHeight]
    end.
Proof.
  unfold suppliesEndHeight, resolveHeights, chosenStartHeight.
  intros ->. unfold bind, await_getLatestHeight.
  destruct (getLatestHeight (networkClient this) s) as [[[h|e]|t] s']; reflexivity.
Qed.

(** The three cases, as one case analysis for proofs. *)
Lemma resolveHeights_cases this osp s :
  (osp = None /\
   resolveHeights this osp s
   = mkRun (Resolved (VNumber (Num 0), VNumber (Num 0))) s [])
  \/ (exists sp, osp = Some sp /\ suppliesEndHeight sp = true /\
      resolveHeights this osp s
      = mkRun (Resolved (chosenStartHeight sp, get sp "endHeight")) s [])
  \/ (exists sp h s', osp = Some sp /\ suppliesEndHeight sp = false /\
      getLatestHeight (networkClient this) s = (Resolved (inl h), s') /\
      resolveHeights this osp s
      = mkRun (Resolved (chosenStartHeight sp, VNumber h)) s' [CallGetLatestHeight])
  \/ (exists sp e s', osp = Some sp /\ suppliesEndHeight sp = false /\
      getLatestHeight (networkClient this) s = (Resolved (inr e), s') /\
      resolveHeights this osp s
      = mkRun (Rejected (ThrownString "Unable to get current block height")) s'
          [CallGetLatestHeight; ConsoleError "Error getting latest height" (inr e)])
  \/ (exists sp t s', osp = Some sp /\ suppliesEndHeight sp = false /\
      getLatestHeight (networkClient this) s = (Rejected t, s') /\
      resolveHeights this osp s = mkRun (Rejected t) s' [CallGetLatestHeight]).
Proof.
  destruct osp as [sp|]; [|left; split; reflexivity].
  right. destruct (suppliesEndHeight sp) eqn:Hg.
  - left. exists sp. repeat split; auto using resolveHeights_supplied.
  - right. rewrite (resolveHeights_fallback this sp s Hg).
    destruct (getLatestHeight (networkClient this) s) as [[[h|e]|t] s'].
    + left. exists sp, h, s'. repeat split; auto.
    + right; left. exists sp, e, s'. repeat split; auto.
    + right; right. exists sp, t, s'. repeat split; auto.
Qed.

(** Resolving the heights never queries for records. *)
Lemma resolveHeights_no_query this osp s :
  queries (trace (resolveHeights this osp s)) = [].
Proof.
  destruct (resolveHeights_cases this osp s)
    as [(_ & ->)|[(sp & _ & _ & ->)|[(sp & h & s' & _ & _ & _ & ->)|
        [(sp & e & s' & _ & _ & _ & ->)|(sp & t & s' & _ & _ & _ & ->)]]]];
    reflexivity.
Qed.

(** Line 200, once the heights are there. *)
Lemma findCreditsRecords_query this amounts unspent nonces osp s sH eH :
  outcome (resolveHeights this osp s) = Resolved (sH, eH) ->
  findCreditsRecords this amounts unspent nonces osp s
  = let r0 := resolveHeights this osp s in
    let ans :=
      findUnspentRecords (networkClient this) sH eH (privateKey (account this))
        amounts VUndefined nonces (final r0) in
    mkRun (fst ans) (snd ans)
      (trace r0 ++ [CallFindUnspentRecords sH eH (privateKey (account this))
                      amounts VUndefined nonces]).
Proof.
  intros H. unfold findCreditsRecords, bind. rewrite H. simpl.
  unfold await_findUnspentRecords.
  destruct (findUnspentRecords _ _ _ _ _ _ _ _) as [r s']. reflexivity.
Qed.

(** A rejection while resolving the heights ends the call there. *)
Lemma findCreditsRecords_abort this amounts unspent nonces osp s t :
  outcome (resolveHeights this osp s) = Rejected t ->
  findCreditsRecords this amounts unspent nonces osp s
  = let r0 := resolveHeights this osp s in
    mkRun (Rejected t) (final r0) (trace r0).
Proof.
  intros H. unfold findCreditsRecords, bind. rewrite H. reflexivity.
Qed.

End HeightWindow.

(** ** Single-record search in terms of the batch search *)

Section SingleRecord.
Context {St : Type}.
Implicit Types this : NetworkRecordProvider St.

(** Lines 213-218 read off the run of the batch search. *)
Lemma findCreditsRecord_unfold this A unspent nonces osp s :
  findCreditsRecord this A unspent nonces osp s
  = let r := findCreditsRecords this [A] unspent nonces osp s in
    match outcome r with
    | Resolved (inl (x :: _)) => mkRun (Resolved (inl x)) (final r) (trace r ++ [])
    | Resolved v =>
        mkRun (Resolved (inr (mkError "Record not found"))) (final r)
          (trace r ++ [ConsoleError "Record not found with error:" v])
    | Rejected t => mkRun (Rejected t) (final r) (trace r)
    end.
Proof.
  unfold findCreditsRecord, bind. simpl.
  destruct (outcome (findCreditsRecords this [A] unspent nonces osp s))
    as [[[|x l]|e]|t]; reflexivity.
Qed.

(** The single-record search talks to the network exactly as its batch
    search does. *)
Lemma findCreditsRecord_calls this A unspent nonces osp s :
  lookups (trace (findCreditsRecord this A unspent nonces osp s))
  = lookups (trace (findCreditsRecords this [A] unspent nonces osp s)) /\
  queries (trace (findCreditsRecord this A unspent nonces osp s))
  = queries (trace (findCreditsRecords this [A] unspent nonces osp s)).
Proof.
  rewrite findCreditsRecord_unfold. simpl.
  unfold lookups, queries.
  destruct (outcome (findCreditsRecords this [A] unspent nonces osp s))
    as [[[|x l]|e]|t]; simpl; rewrite ?List.filter_app; simpl;
    rewrite ?app_nil_r; split; reflexivity.
Qed.

End SingleRecord.

(** ** Chain-tip lookup (C1) *)

(** Runs [findCreditsRecords] symbolically once the run [E] of
    [resolveHeights] is known, on either of its two continuations. *)
Ltac run_query E :=
  first
    [ rewrite findCreditsRecords_query with (1 := f_equal outcome E)
    | rewrite findCreditsRecords_abort with (1 := f_equal outcome E) ];
  rewrite E; cbn [outcome final trace fst snd app].

Section TipLookup.
Context {St : Type}.
Implicit Types this : NetworkRecordProvider St.
Implicit Types sp : gmap string value.

(** Without search parameters: no lookup, and the query is made on the
    window [0, 0]. *)
Lemma findCreditsRecords_without_params this amounts unspent nonces s :
  let r := findCreditsRecords this amounts unspent nonces None s in
  lookups (trace r) = 0 /\
  queries (trace r)
  = [CallFindUnspentRecords (VNumber (Num 0)) (VNumber (Num 0))
       (privateKey (account this)) amounts VUndefined nonces].
Proof.
  intros r; subst r.
  run_query (resolveHeights_absent this s). split; reflexivity.
Qed.

(** The calls of a search with parameters, for any list of amounts. *)
Lemma calls_with_params this amounts unspent nonces sp s :
  let r := findCreditsRecords this amounts unspent nonces (Some sp) s in
  let key := privateKey (account this) in
  if suppliesEndHeight sp then
    lookups (trace r) = 0 /\
    queries (trace r)
    = [CallFindUnspentRecords (chosenStartHeight sp) (get sp "endHeight")
         key amounts VUndefined nonces]
  else
    lookups (trace r) = 1 /\
    match getLatestHeight (networkClient this) s with
    | (Resolved (inl h), _) =>
        queries (trace r)
        = [CallFindUnspentRecords (chosenStartHeight sp) (VNumber h)
             key amounts VUndefined nonces]
    | _ => queries (trace r) = []
    end.
Proof.
  intros r key; subst r key.
  destruct (suppliesEndHeight sp) eqn:Hg.
  - run_query (resolveHeights_supplied this sp s Hg). split; reflexivity.
  - pose proof (resolveHeights_fallback this sp s Hg) as E.
    destruct (getLatestHeight (networkClient this) s) as [[[h|e]|t] s'];
      run_query E; split; reflexivity.
Qed.

(** C1, as the code has it: when search parameters are given, the chain tip
    is asked for exactly once if their [endHeight] is not a number other
    than [0] and [NaN], and a height answered becomes the end of the queried
    window; it is never asked for if their [endHeight] is such a number,
    which then is the end of the queried window.  The same counts hold for
    [findCreditsRecord]. *)
Theorem C1_tip_lookup_with_params this amounts A unspent nonces sp s :
  let r := findCreditsRecords this amounts unspent nonces (Some sp) s in
  let key := privateKey (account this) in
  lookups (trace (findCreditsRecord this A unspent nonces (Some sp) s))
  = (if suppliesEndHeight sp then 0 else 1) /\
  if suppliesEndHeight sp then
    lookups (trace r) = 0 /\
    queries (trace r)
    = [CallFindUnspentRecords (chosenStartHeight sp) (get sp "endHeight")
         key amounts VUndefined nonces]
  else
    lookups (trace r) = 1 /\
    match getLatestHeight (networkClient this) s with
    | (Resolved (inl h), _) =>
        queries (trace r)
        = [CallFindUnspentRecords (chosenStartHeight sp) (VNumber h)
             key amounts VUndefined nonces]
    | _ => queries (trace r) = []
    end.
Proof.
  intros r key. split.
  - destruct (findCreditsRecord_calls this A unspent nonces (Some sp) s) as [-> _].
    pose proof (calls_with_params this [A] unspent nonces sp s) as H.
    cbv zeta in H. destruct (suppliesEndHeight sp); apply H.
  - apply calls_with_params.
Qed.

End TipLookup.

(** C1 fails as stated: [{startHeight: 0, endHeight: 0}] supplies a numeric
    [endHeight], and the chain tip is asked for all the same, [0] being
    falsy in the guard of line 188. *)
Lemma C1_lookup_despite_numeric_endHeight :
  let sp := BlockHeightSearch (Num 0) (Num 0) in
  let r := findCreditsRecords Mock.provider [Num 5000] true (Some []) (Some sp)
             Mock.net100 in
  typeof (get sp "endHeight") = "number" /\
  lookups (trace r) = 1 /\
  lookups (trace r) <> 0.
Proof. vm_compute. repeat split; congruence. Qed.

(** ** The start of the window (C2) *)

Section StartHeight.
Context {St : Type}.
Implicit Types this : NetworkRecordProvider St.
Implicit Types sp : gmap string value.

(** Line 184 tests the type of [endHeight], not of [startHeight]: a start
    height is dropped unless [endHeight] is a number. *)
Lemma chosenStartHeight_needs_endHeight sp :
  typeof (get sp "endHeight") <> "number" ->
  chosenStartHeight sp = VNumber (Num 0).
Proof.
  intros H. unfold chosenStartHeight.
  destruct (String.eqb_spec (typeof (get sp "endHeight")) "number") as [E|_].
  - contradiction.
  - rewrite andb_false_r. reflexivity.
Qed.


(** The scenario of the height range [10, 20]: one query on exactly that
    window and no chain-tip lookup, whatever the network client. *)
Lemma window_10_20 this amounts unspent nonces s :
  let r := findCreditsRecords this amounts unspent nonces
             (Some (BlockHeightSearch (Num 10) (Num 20))) s in
  lookups (trace r) = 0 /\
  queries (trace r)
  = [CallFindUnspentRecords (VNumber (Num 10)) (VNumber (Num 20))
       (privateKey (account this)) amounts VUndefined nonces].
Proof.
  exact (calls_with_params this amounts unspent nonces
           (BlockHeightSearch (Num 10) (Num 20)) s).
Qed.

End StartHeight.

(** C2 at [{startHeight: 10}] and a chain tip of 100: the parameters hold a
    numeric [startHeight], and the query is made from height [0]. *)
Example C2_startHeight_dropped_without_endHeight :
  let sp : gmap string value := {["startHeight" := VNumber (Num 10)]} in
  let r := findCreditsRecords Mock.provider [Num 5000] true (Some []) (Some sp)
             Mock.net100 in
  get sp "startHeight" = VNumber (Num 10) /\
  queries (trace r)
  = [CallFindUnspentRecords (VNumber (Num 0)) (VNumber (Num 100))
       "APrivateKey1alice" [Num 5000] VUndefined (Some [])].
Proof. vm_compute. split; reflexivity. Qed.

(** The same slip the other way round: a [startHeight] that is not a number
    reaches the query when [endHeight] is one. *)
Example startHeight_string_passed_on :
  let sp : gmap string value :=
    <["startHeight" := VString "ten"]> {["endHeight" := VNumber (Num 20)]} in
  queries (trace (findCreditsRecords Mock.provider [Num 5000] true (Some [])
                    (Some sp) Mock.net100))
  = [CallFindUnspentRecords (VString "ten") (VNumber (Num 20))
       "APrivateKey1alice" [Num 5000] VUndefined (Some [])].
Proof. vm_compute. reflexivity. Qed.

(** ** Failures (C3, C6, C7) *)

Section Failures.
Context {St : Type}.
Implicit Types this : NetworkRecordProvider St.
Implicit Types sp : gmap string value.

(** C6: [findRecord] and [findRecords] fail at once with the error
    "Method not implemented.", whatever their arguments: nothing is asked of
    the network, its state is untouched and no record is returned. *)
Theorem C6_arbitrary_search_not_implemented
    this unspent nonces (osp : option (gmap string value)) (s : St) :
  findRecord this unspent nonces osp s
  = mkRun (Rejected (ThrownError (mkError "Method not implemented."))) s [] /\
  findRecords this unspent nonces osp s
  = mkRun (Rejected (ThrownError (mkError "Method not implemented."))) s [].
Proof. split; reflexivity. Qed.

(** C7: when a search asks for the chain tip and the answer is an [Error],
    the search is rejected with "Unable to get current block height"; no
    query for records is made and no record list comes back. *)
Theorem C7_tip_failure_aborts this amounts unspent nonces osp s e s' :
  lookups (trace (findCreditsRecords this amounts unspent nonces osp s)) <> 0 ->
  getLatestHeight (networkClient this) s = (Resolved (inr e), s') ->
  let r := findCreditsRecords this amounts unspent nonces osp s in
  outcome r = Rejected (ThrownString "Unable to get current block height") /\
  queries (trace r) = [] /\
  final r = s'.
Proof.
  intros Hl Hg r; subst r.
  destruct osp as [sp|].
  - pose proof (calls_with_params this amounts unspent nonces sp s) as Hc.
    cbv zeta in Hc.
    destruct (suppliesEndHeight sp) eqn:Hsp.
    + destruct Hc as [Hc _]. contradiction.
    + pose proof (resolveHeights_fallback this sp s Hsp) as E.
      rewrite Hg in E. run_query E. repeat split; reflexivity.
  - destruct (findCreditsRecords_without_params this amounts unspent nonces s)
      as [H0 _]. contradiction.
Qed.

(** C3, as the code has it: [findRecord] and [findRecords] are always
    rejected with [Error("Method not implemented.")].  With a network client
    whose own promises are never rejected, [findCreditsRecords] either
    resolves with exactly what the client's query answered (records or
    [Error]), or is rejected with the string
    "Unable to get current block height", the latter only after a chain-tip
    lookup; [findCreditsRecord] either resolves (with a record or
    [Error("Record not found")]) or is rejected in the same way. *)
Theorem C3_failure_channels this amounts A unspent nonces osp s :
  never_rejects (networkClient this) ->
  let failed : thrown := ThrownString "Unable to get current block height" in
  let batch := findCreditsRecords this amounts unspent nonces osp s in
  let single := findCreditsRecord this A unspent nonces osp s in
  outcome (findRecord this unspent nonces osp s)
  = Rejected (ThrownError (mkError "Method not implemented.")) /\
  outcome (findRecords this unspent nonces osp s)
  = Rejected (ThrownError (mkError "Method not implemented.")) /\
  ((exists sH eH s1,
       (outcome batch, final batch)
       = findUnspentRecords (networkClient this) sH eH
           (privateKey (account this)) amounts VUndefined nonces s1 /\
       exists v, outcome batch = Resolved v)
   \/ (outcome batch = Rejected failed /\ lookups (trace batch) = 1)) /\
  ((exists x, outcome single = Resolved (inl x))
   \/ outcome single = Resolved (inr (mkError "Record not found"))
   \/ (outcome single = Rejected failed /\ lookups (trace single) = 1)).
Proof.
  intros [Hh Hq] failed batch single.
  split; [reflexivity|]. split; [reflexivity|].
  assert (Hb : forall amts,
    let b := findCreditsRecords this amts unspent nonces osp s in
    (exists sH eH s1,
       (outcome b, final b)
       = findUnspentRecords (networkClient this) sH eH
           (privateKey (account this)) amts VUndefined nonces s1 /\
       exists v, outcome b = Resolved v)
    \/ (outcome b = Rejected failed /\ lookups (trace b) = 1)).
  { intros amts b; subst b.
    destruct (resolveHeights_cases this osp s)
      as [(_ & E)|[(sp & _ & _ & E)|[(sp & h & s' & _ & _ & _ & E)|
          [(sp & e & s' & _ & _ & _ & E)|(sp & t & s' & _ & _ & Hg & E)]]]].
    1-3: left; run_query E;
      match goal with
      | |- context [findUnspentRecords ?c ?a ?b ?k ?m ?p ?n ?st] =>
          exists a, b, st; destruct (Hq a b k m p n st) as (v & s2 & ->)
      end; simpl; split; [reflexivity|eexists; reflexivity].
    - right. run_query E. split; reflexivity.
    - destruct (Hh s) as (v & s2 & Hv). congruence. }
  split; [apply Hb|].
  subst single. rewrite findCreditsRecord_unfold. cbv zeta.
  destruct (findCreditsRecord_calls this A unspent nonces osp s) as [Hl _].
  rewrite findCreditsRecord_unfold in Hl. cbv zeta in Hl.
  destruct (Hb [A]) as [(_ & _ & _ & _ & v & Hv)|[Hv Hc]]; cbv zeta in *.
  - rewrite Hv. destruct v as [[|x l]|e]; simpl; eauto.
  - rewrite Hv in *. simpl. right; right. split; [reflexivity|].
    simpl in Hl. congruence.
Qed.

End Failures.

(** The search of C7 run on a network whose tip lookup fails. *)
Lemma C7_tip_failure_aborts_witness :
  let r := findCreditsRecords Mock.provider [Num 5000] true (Some [])
             (Some ∅) Mock.netDown in
  outcome r = Rejected (ThrownString "Unable to get current block height") /\
  queries (trace r) = [] /\
  final r = Mock.netDown.
Proof.
  apply (C7_tip_failure_aborts Mock.provider [Num 5000] true (Some []) (Some ∅)
           Mock.netDown (mkError "fetch failed") Mock.netDown).
  - vm_compute. discriminate.
  - reflexivity.
Defined.

(** The test double never rejects a promise. *)
Lemma mock_never_rejects : never_rejects Mock.client.
Proof.
  split.
  - intros s. eexists; eexists; reflexivity.
  - intros sH eH k a p ns s. eexists; eexists; reflexivity.
Defined.

(** The four operations of C3 on the test double, its tip lookup failing. *)
Lemma C3_failure_channels_witness :
  let failed : thrown := ThrownString "Unable to get current block height" in
  let batch := findCreditsRecords Mock.provider [Num 5000] true (Some [])
                 (Some ∅) Mock.netDown in
  let single := findCreditsRecord Mock.provider (Num 5000) true (Some [])
                  (Some ∅) Mock.netDown in
  outcome (findRecord Mock.provider true (Some []) (Some ∅) Mock.netDown)
  = Rejected (ThrownError (mkError "Method not implemented.")) /\
  outcome (findRecords Mock.provider true (Some []) (Some ∅) Mock.netDown)
  = Rejected (ThrownError (mkError "Method not implemented.")) /\
  ((exists sH eH s1,
       (outcome batch, final batch)
       = findUnspentRecords Mock.client sH eH
           (privateKey Mock.alice) [Num 5000] VUndefined (Some []) s1 /\
       exists v, outcome batch = Resolved v)
   \/ (outcome batch = Rejected failed /\ lookups (trace batch) = 1)) /\
  ((exists x, outcome single = Resolved (inl x))
   \/ outcome single = Resolved (inr (mkError "Record not found"))
   \/ (outcome single = Rejected failed /\ lookups (trace single) = 1)).
Proof.
  exact (C3_failure_channels Mock.provider [Num 5000] (Num 5000) true (Some [])
           (Some ∅) Mock.netDown mock_never_rejects).
Defined.

(** C3 fails as stated: a call of [findRecord] is rejected with a thrown
    [Error], and a call of [findCreditsRecords] whose tip lookup fails is
    rejected with a thrown string; neither resolves with an [Error] value. *)
Lemma C3_operations_do_reject :
  outcome (findRecord Mock.provider true None None Mock.net100)
  = Rejected (ThrownError (mkError "Method not implemented.")) /\
  outcome (findCreditsRecords Mock.provider [Num 5000] true (Some []) (Some ∅)
             Mock.netDown)
  = Rejected (ThrownString "Unable to get current block height") /\
  ~ (exists v, outcome (findRecord Mock.provider true None None Mock.net100)
               = Resolved v).
Proof.
  split; [reflexivity|]. split; [reflexivity|].
  intros [v H]. discriminate H.
Qed.

(** ** Delegation (C4, C5, C8, C9, C10) *)

Section Delegation.
Context {St : Type}.
Implicit Types this : NetworkRecordProvider St.
Implicit Types sp : gmap string value.

(** The answer of a search that got its heights is the answer of the query. *)
Lemma findCreditsRecords_answer this amounts unspent nonces osp s sH eH :
  outcome (resolveHeights this osp s) = Resolved (sH, eH) ->
  let r := findCreditsRecords this amounts unspent nonces osp s in
  (outcome r, final r)
  = findUnspentRecords (networkClient this) sH eH (privateKey (account this))
      amounts VUndefined nonces (final (resolveHeights this osp s)).
Proof.
  intros H r; subst r.
  rewrite (findCreditsRecords_query this amounts unspent nonces osp s sH eH H).
  cbv zeta. cbn [outcome final trace].
  destruct (findUnspentRecords _ _ _ _ _ _ _ _). reflexivity.
Qed.

(** C4: once the height window [(sH, eH)] is resolved, the search calls
    [findUnspentRecords] exactly once, with that window, the private key of
    the current account, all the requested amounts, [undefined] and the
    caller's nonces, at the state the resolution left; what that call
    answers (records, [Error] or a rejection) is the answer of the search. *)
Theorem C4_single_delegation this amounts unspent nonces osp s sH eH :
  outcome (resolveHeights this osp s) = Resolved (sH, eH) ->
  let r := findCreditsRecords this amounts unspent nonces osp s in
  queries (trace r)
  = [CallFindUnspentRecords sH eH (privateKey (account this)) amounts
       VUndefined nonces] /\
  (outcome r, final r)
  = findUnspentRecords (networkClient this) sH eH (privateKey (account this))
      amounts VUndefined nonces (final (resolveHeights this osp s)).
Proof.
  intros H r; subst r.
  rewrite (findCreditsRecords_query this amounts unspent nonces osp s sH eH H).
  cbv zeta. cbn [outcome final trace].
  split.
  - unfold queries. rewrite List.filter_app.
    fold (queries (trace (resolveHeights this osp s))).
    rewrite resolveHeights_no_query. reflexivity.
  - destruct (findUnspentRecords _ _ _ _ _ _ _ _). reflexivity.
Qed.

(** C5, as the code has it: the single search resolves with the first
    record of the batch search for [[A]] when that resolves with a non-empty
    list of records, resolves with [Error("Record not found")] when that
    resolves with an empty list or with an [Error], and is rejected with the
    same thrown value when that is rejected; in every case it leaves the
    network in the state the batch search left. *)
Theorem C5_single_from_batch this A unspent nonces osp s :
  let batch := findCreditsRecords this [A] unspent nonces osp s in
  let single := findCreditsRecord this A unspent nonces osp s in
  outcome single
  = match outcome batch with
    | Resolved (inl (r :: _)) => Resolved (inl r)
    | Resolved (inl []) | Resolved (inr _) =>
        Resolved (inr (mkError "Record not found"))
    | Rejected t => Rejected t
    end /\
  final single = final batch.
Proof.
  intros batch single; subst batch single.
  rewrite findCreditsRecord_unfold. cbv zeta.
  destruct (outcome (findCreditsRecords this [A] unspent nonces osp s))
    as [[[|x l]|e]|t]; split; reflexivity.
Qed.

(** A rejected batch search rejects the single search with the same value. *)
Lemma findCreditsRecord_rejected this A unspent nonces osp s t :
  outcome (findCreditsRecords this [A] unspent nonces osp s) = Rejected t ->
  outcome (findCreditsRecord this A unspent nonces osp s) = Rejected t.
Proof.
  intros H. rewrite findCreditsRecord_unfold. cbv zeta. rewrite H. reflexivity.
Qed.

(** C8: if the network client returns no record whose nonce is in the
    exclusion list it is given, then no record returned by
    [findCreditsRecords] or by [findCreditsRecord] has its nonce among the
    caller's [nonces]. *)
Theorem C8_excluded_nonces_not_returned
    this amounts A unspent (nonces : option (list string)) osp s :
  honours_exclusion (networkClient this) ->
  (forall rs,
      outcome (findCreditsRecords this amounts unspent nonces osp s)
      = Resolved (inl rs) ->
      Forall (fun r => nonce r ∉ default [] nonces) rs) /\
  (forall r,
      outcome (findCreditsRecord this A unspent nonces osp s)
      = Resolved (inl r) ->
      nonce r ∉ default [] nonces).
Proof.
  intros Hx.
  assert (Hb : forall amts rs,
      outcome (findCreditsRecords this amts unspent nonces osp s)
      = Resolved (inl rs) ->
      Forall (fun r => nonce r ∉ default [] nonces) rs).
  { intros amts rs Hrs.
    destruct (outcome (resolveHeights this osp s)) as [[sH eH]|t] eqn:E.
    - pose proof (findCreditsRecords_answer this amts unspent nonces osp s sH eH E)
        as Hq.
      cbv zeta in Hq. rewrite Hrs in Hq. symmetry in Hq. exact (Hx _ _ _ _ _ _ _ _ _ Hq).
    - rewrite (findCreditsRecords_abort this amts unspent nonces osp s t E) in Hrs.
      discriminate Hrs. }
  split; [apply Hb|].
  intros r Hr.
  destruct (outcome (findCreditsRecords this [A] unspent nonces osp s))
    as [v|t] eqn:E.
  - pose proof (findCreditsRecord_unfold this A unspent nonces osp s) as U.
    cbv zeta in U. rewrite E in U. rewrite U in Hr.
    destruct v as [[|x l]|e]; simpl in Hr; try discriminate Hr.
    injection Hr as ->.
    pose proof (Hb [A] (r :: l) E) as HF.
    exact (Forall_inv HF).
  - rewrite (findCreditsRecord_rejected this A unspent nonces osp s t E) in Hr.
    discriminate Hr.
Qed.

(** Every query of a search is made with the private key of the account
    the provider holds when the search is called. *)
Lemma findCreditsRecords_key this amounts unspent nonces osp s :
  Forall (uses_key (privateKey (account this)))
    (trace (findCreditsRecords this amounts unspent nonces osp s)).
Proof.
  destruct (resolveHeights_cases this osp s)
    as [(_ & E)|[(sp & _ & _ & E)|[(sp & h & s' & _ & _ & _ & E)|
        [(sp & e & s' & _ & _ & _ & E)|(sp & t & s' & _ & _ & _ & E)]]]];
    run_query E; repeat constructor.
Qed.

Lemma findCreditsRecord_key this A unspent nonces osp s :
  Forall (uses_key (privateKey (account this)))
    (trace (findCreditsRecord this A unspent nonces osp s)).
Proof.
  rewrite findCreditsRecord_unfold. cbv zeta.
  pose proof (findCreditsRecords_key this [A] unspent nonces osp s) as H.
  destruct (outcome (findCreditsRecords this [A] unspent nonces osp s))
    as [[[|x l]|e]|t]; cbn [trace]; try apply Forall_app; auto;
    split; auto; repeat constructor.
Qed.

(** C9: [setAccount a] stores exactly [a] and leaves the network client as
    it was.  A search made afterwards carries the private key of [a] in every
    query; and it does query with that key: when its height window resolves
    to [(sH, eH)], its one query is [findUnspentRecords(sH, eH, key of a,
    ...)], for the batch search and for the single search alike, and it makes
    no query only when the resolution of the heights is rejected. *)
Theorem C9_setAccount_frame this a amounts A unspent nonces osp (s : St) :
  let this' := setAccount this a in
  account this' = a /\
  networkClient this' = networkClient this /\
  Forall (uses_key (privateKey a))
    (trace (findCreditsRecords this' amounts unspent nonces osp s)) /\
  Forall (uses_key (privateKey a))
    (trace (findCreditsRecord this' A unspent nonces osp s)) /\
  match outcome (resolveHeights this' osp s) with
  | Resolved (sH, eH) =>
      queries (trace (findCreditsRecords this' amounts unspent nonces osp s))
      = [CallFindUnspentRecords sH eH (privateKey a) amounts VUndefined nonces] /\
      queries (trace (findCreditsRecord this' A unspent nonces osp s))
      = [CallFindUnspentRecords sH eH (privateKey a) [A] VUndefined nonces]
  | Rejected _ =>
      queries (trace (findCreditsRecords this' amounts unspent nonces osp s)) = [] /\
      queries (trace (findCreditsRecord this' A unspent nonces osp s)) = []
  end.
Proof.
  intros this'.
  split; [reflexivity|]. split; [reflexivity|].
  split; [exact (findCreditsRecords_key this' amounts unspent nonces osp s)|].
  split; [exact (findCreditsRecord_key this' A unspent nonces osp s)|].
  destruct (findCreditsRecord_calls this' A unspent nonces osp s) as [_ ->].
  destruct (resolveHeights_cases this' osp s)
    as [(_ & E)|[(sp & _ & _ & E)|[(sp & h & s' & _ & _ & _ & E)|
        [(sp & e & s' & _ & _ & _ & E)|(sp & t & s' & _ & _ & _ & E)]]]];
    pose proof (f_equal outcome E) as HO; cbn [outcome] in HO; rewrite HO;
    split; run_query E; reflexivity.
Qed.

(** C10: the [unspent] flag has no influence: two searches that differ in it
    only run identically, in their result, in the state they leave and in
    the calls they make. *)
Theorem C10_unspent_ignored this amounts A (u u' : bool) nonces osp (s : St) :
  findCreditsRecords this amounts u nonces osp s
  = findCreditsRecords this amounts u' nonces osp s /\
  findCreditsRecord this A u nonces osp s
  = findCreditsRecord this A u' nonces osp s.
Proof. split; reflexivity. Qed.

End Delegation.

(** ** The claims on the test double *)

(** The test double honours the exclusion list. *)
Lemma mock_honours_exclusion : honours_exclusion Mock.client.
Proof.
  intros sH eH k a p ns s rs s' H. simpl in H.
  injection H as <- _.
  apply Forall_forall. intros r Hr.
  apply list_elem_of_In, List.filter_In in Hr as [_ Hc].
  apply andb_prop in Hc as [_ Hn].
  intros Hin. apply list_elem_of_In in Hin.
  apply negb_true_iff in Hn. unfold Mock.excluded in Hn.
  assert (existsb (String.eqb (nonce r)) (default [] ns) = true) as Ht.
  { apply existsb_exists. exists (nonce r). split; [exact Hin|].
    apply String.eqb_refl. }
  congruence.
Defined.

(** C4 on the window [10, 20]. *)
Lemma C4_single_delegation_witness :
  let r := findCreditsRecords Mock.provider [Num 5000] true (Some ["nonce-1"])
             (Some (BlockHeightSearch (Num 10) (Num 20))) Mock.net100 in
  queries (trace r)
  = [CallFindUnspentRecords (VNumber (Num 10)) (VNumber (Num 20))
       (privateKey (account Mock.provider)) [Num 5000] VUndefined
       (Some ["nonce-1"])] /\
  (outcome r, final r)
  = findUnspentRecords (networkClient Mock.provider) (VNumber (Num 10))
      (VNumber (Num 20)) (privateKey (account Mock.provider)) [Num 5000]
      VUndefined (Some ["nonce-1"])
      (final (resolveHeights Mock.provider
                (Some (BlockHeightSearch (Num 10) (Num 20))) Mock.net100)).
Proof.
  apply (C4_single_delegation Mock.provider [Num 5000] true (Some ["nonce-1"])
           (Some (BlockHeightSearch (Num 10) (Num 20))) Mock.net100
           (VNumber (Num 10)) (VNumber (Num 20))).
  vm_compute. reflexivity.
Defined.

(** C5 fails as stated: on a network whose chain-tip lookup answers an
    [Error], the batch search for [[5000]] is rejected, so it is no non-empty
    list of records, and the single search is rejected as well instead of
    resolving with [Error("Record not found")]. *)
Lemma C5_rejected_batch_not_normalised :
  let batch := findCreditsRecords Mock.provider [Num 5000] true (Some [])
                 (Some ∅) Mock.netDown in
  let single := findCreditsRecord Mock.provider (Num 5000) true (Some [])
                  (Some ∅) Mock.netDown in
  outcome batch = Rejected (ThrownString "Unable to get current block height") /\
  outcome single = Rejected (ThrownString "Unable to get current block height") /\
  outcome single <> Resolved (inr (mkError "Record not found")).
Proof.
  vm_compute. split; [reflexivity|]. split; [reflexivity|]. discriminate.
Qed.

(** C5 on a network with two records of 5000 microcredits: the first one. *)
Lemma C5_single_from_batch_witness :
  outcome (findCreditsRecord Mock.provider (Num 5000) true (Some []) None
             Mock.net100)
  = Resolved (inl Mock.r1) /\
  final (findCreditsRecord Mock.provider (Num 5000) true (Some []) None
           Mock.net100)
  = final (findCreditsRecords Mock.provider [Num 5000] true (Some []) None
             Mock.net100).
Proof.
  exact (C5_single_from_batch Mock.provider (Num 5000) true (Some []) None
           Mock.net100).
Defined.

(** C8 with the first record's nonce excluded: the second record is found. *)
Lemma C8_excluded_nonces_not_returned_witness :
  Forall (fun r => nonce r ∉ ["nonce-1"]) [Mock.r2] /\
  nonce Mock.r2 ∉ ["nonce-1"].
Proof.
  destruct (C8_excluded_nonces_not_returned Mock.provider [Num 5000] (Num 5000)
              true (Some ["nonce-1"]) None Mock.net100 mock_honours_exclusion)
    as [Hb Hs].
  split.
  - apply (Hb [Mock.r2]). vm_compute. reflexivity.
  - apply (Hs Mock.r2). vm_compute. reflexivity.
Defined.

(** After [setAccount(bob)] the query of a search carries bob's key. *)
Example setAccount_bob_query :
  queries (trace (findCreditsRecords (setAccount Mock.provider Mock.bob)
                    [Num 5000] true None None Mock.net100))
  = [CallFindUnspentRecords (VNumber (Num 0)) (VNumber (Num 0))
       "APrivateKey1bob" [Num 5000] VUndefined None].
Proof. vm_compute. reflexivity. Qed.

(** ** Further properties of the search *)

Section SearchRuns.
Context {St : Type}.
Implicit Types this : NetworkRecordProvider St.
Implicit Types sp : gmap string value.

(** The whole run of a search whose end height comes from the parameters. *)
Lemma search_supplied this amounts unspent nonces sp s :
  suppliesEndHeight sp = true ->
  findCreditsRecords this amounts unspent nonces (Some sp) s
  = let ans :=
      findUnspentRecords (networkClient this) (chosenStartHeight sp)
        (get sp "endHeight") (privateKey (account this)) amounts VUndefined
        nonces s in
    mkRun (fst ans) (snd ans)
      [CallFindUnspentRecords (chosenStartHeight sp) (get sp "endHeight")
         (privateKey (account this)) amounts VUndefined nonces].
Proof.
  intros Hg. run_query (resolveHeights_supplied this sp s Hg). reflexivity.
Qed.

(** The whole run of a search whose end height is the chain tip. *)
Lemma search_at_tip this amounts unspent nonces sp s h s' :
  suppliesEndHeight sp = false ->
  getLatestHeight (networkClient this) s = (Resolved (inl h), s') ->
  findCreditsRecords this amounts unspent nonces (Some sp) s
  = let ans :=
      findUnspentRecords (networkClient this) (chosenStartHeight sp)
        (VNumber h) (privateKey (account this)) amounts VUndefined nonces s' in
    mkRun (fst ans) (snd ans)
      [CallGetLatestHeight;
       CallFindUnspentRecords (chosenStartHeight sp) (VNumber h)
         (privateKey (account this)) amounts VUndefined nonces].
Proof.
  intros Hg Hh. pose proof (resolveHeights_fallback this sp s Hg) as E.
  rewrite Hh in E. run_query E. reflexivity.
Qed.

(** The guard of line 188 fails when [endHeight] is not a number. *)
Lemma suppliesEndHeight_not_number sp :
  typeof (get sp "endHeight") <> "number" -> suppliesEndHeight sp = false.
Proof.
  intros H. unfold suppliesEndHeight.
  destruct (String.eqb_spec (typeof (get sp "endHeight")) "number");
    [contradiction|apply andb_false_r].
Qed.

(** X1: a search called without search parameters asks nothing about the
    chain tip and makes its one query on the window [0, 0], at the state it
    was called in; the answer of that query is its answer. *)
Theorem X1_search_without_params this amounts unspent nonces s :
  let r := findCreditsRecords this amounts unspent nonces None s in
  trace r
  = [CallFindUnspentRecords (VNumber (Num 0)) (VNumber (Num 0))
       (privateKey (account this)) amounts VUndefined nonces] /\
  (outcome r, final r)
  = findUnspentRecords (networkClient this) (VNumber (Num 0)) (VNumber (Num 0))
      (privateKey (account this)) amounts VUndefined nonces s.
Proof.
  intros r; subst r. run_query (resolveHeights_absent this s).
  destruct (findUnspentRecords _ _ _ _ _ _ _ _). split; reflexivity.
Qed.

(** X2: when the [endHeight] of the search parameters is not a number, their
    [startHeight] is not used: once the chain tip [h] is known, the query is
    made on the window [0, h], whatever [startHeight] holds. *)
Theorem X2_startHeight_needs_numeric_endHeight
    this amounts unspent nonces sp s h s' :
  typeof (get sp "endHeight") <> "number" ->
  getLatestHeight (networkClient this) s = (Resolved (inl h), s') ->
  trace (findCreditsRecords this amounts unspent nonces (Some sp) s)
  = [CallGetLatestHeight;
     CallFindUnspentRecords (VNumber (Num 0)) (VNumber h)
       (privateKey (account this)) amounts VUndefined nonces].
Proof.
  intros Hn Hh.
  rewrite (search_at_tip this amounts unspent nonces sp s h s'
             (suppliesEndHeight_not_number sp Hn) Hh).
  rewrite (chosenStartHeight_needs_endHeight sp Hn). reflexivity.
Qed.

(** X3: search parameters holding a number [a] other than [NaN] under
    [startHeight] and a number [b] other than 0 and [NaN] under [endHeight]
    give one query on exactly the window [a, b], with no chain-tip lookup,
    and its answer is the answer of the search.  Nothing is required of [a]
    against [b]: the window is not checked for order or sign. *)
Theorem X3_explicit_window this amounts unspent nonces sp s (a b : number) :
  get sp "startHeight" = VNumber a ->
  get sp "endHeight" = VNumber b ->
  a <> NaN ->
  b <> NaN ->
  b <> Num 0 ->
  let r := findCreditsRecords this amounts unspent nonces (Some sp) s in
  trace r
  = [CallFindUnspentRecords (VNumber a) (VNumber b)
       (privateKey (account this)) amounts VUndefined nonces] /\
  (outcome r, final r)
  = findUnspentRecords (networkClient this) (VNumber a) (VNumber b)
      (privateKey (account this)) amounts VUndefined nonces s.
Proof.
  intros Ha Hb Hna Hnb Hnz r; subst r.
  destruct a as [a|]; [clear Hna|contradiction].
  destruct b as [b|]; [clear Hnb|contradiction].
  assert (Hb0 : b <> 0%Z) by congruence.
  assert (Hg : suppliesEndHeight sp = true).
  { apply suppliesEndHeight_spec. exists b. split; assumption. }
  assert (Hs : chosenStartHeight sp = VNumber (Num a)).
  { unfold chosenStartHeight. rewrite Ha, Hb. simpl.
    destruct (Z.eqb_spec a 0) as [->|_]; reflexivity. }
  rewrite (search_supplied this amounts unspent nonces sp s Hg).
  rewrite Hs, Hb. cbv zeta.
  destruct (findUnspentRecords _ _ _ _ _ _ _ _). split; reflexivity.
Qed.



(** X6: for a number [a] other than [NaN], [BlockHeightSearch(a, 0)]
    searches from [a] up to the chain tip: the tip is asked for once and,
    when it answers [h], the one query is on the window [a, h]. *)
Theorem X6_BlockHeightSearch_zero_end
    this amounts unspent nonces s (a : number) h s' :
  a <> NaN ->
  getLatestHeight (networkClient this) s = (Resolved (inl h), s') ->
  let r := findCreditsRecords this amounts unspent nonces
             (Some (BlockHeightSearch a (Num 0))) s in
  trace r
  = [CallGetLatestHeight;
     CallFindUnspentRecords (VNumber a) (VNumber h)
       (privateKey (account this)) amounts VUndefined nonces] /\
  (outcome r, final r)
  = findUnspentRecords (networkClient this) (VNumber a) (VNumber h)
      (privateKey (account this)) amounts VUndefined nonces s'.
Proof.
  intros Hna Hh r; subst r.
  destruct a as [a|]; [clear Hna|contradiction].
  assert (Hg : suppliesEndHeight (BlockHeightSearch (Num a) (Num 0)) = false).
  { vm_compute. reflexivity. }
  assert (Hs : chosenStartHeight (BlockHeightSearch (Num a) (Num 0))
               = VNumber (Num a)).
  { destruct a; vm_compute; reflexivity. }
  rewrite (search_at_tip this amounts unspent nonces _ s h s' Hg Hh).
  rewrite Hs. cbv zeta.
  destruct (findUnspentRecords _ _ _ _ _ _ _ _). split; reflexivity.
Qed.

(** X7: keys other than [startHeight] and [endHeight] are ignored: two bags
    of search parameters that agree on these two keys give the same run of
    [findCreditsRecords] and of [findCreditsRecord]. *)
Theorem X7_other_keys_ignored this amounts A unspent nonces sp sp' s :
  get sp "startHeight" = get sp' "startHeight" ->
  get sp "endHeight" = get sp' "endHeight" ->
  findCreditsRecords this amounts unspent nonces (Some sp) s
  = findCreditsRecords this amounts unspent nonces (Some sp') s /\
  findCreditsRecord this A unspent nonces (Some sp) s
  = findCreditsRecord this A unspent nonces (Some sp') s.
Proof.
  intros Hs He.
  assert (Hr : forall s0, resolveHeights this (Some sp) s0
                          = resolveHeights this (Some sp') s0).
  { intros s0. unfold resolveHeights. rewrite Hs, He. reflexivity. }
  unfold findCreditsRecord, findCreditsRecords, bind.
  rewrite !Hr. split; reflexivity.
Qed.

End SearchRuns.

Section SearchOutcomes.
Context {St : Type}.
Implicit Types this : NetworkRecordProvider St.
Implicit Types sp : gmap string value.

(** X8: the only [Error] [findCreditsRecord] resolves with is
    [Error("Record not found")].  It stands for a batch search that resolved
    with no record or with an [Error] of the network client; that result is
    not returned but written to the console, as the last thing done. *)
Theorem X8_upstream_error_normalised this A unspent nonces osp s e :
  outcome (findCreditsRecord this A unspent nonces osp s) = Resolved (inr e) ->
  e = mkError "Record not found" /\
  exists v,
    outcome (findCreditsRecords this [A] unspent nonces osp s) = Resolved v /\
    (v = inl [] \/ exists e', v = inr e') /\
    trace (findCreditsRecord this A unspent nonces osp s)
    = (trace (findCreditsRecords this [A] unspent nonces osp s)
       ++ [ConsoleError "Record not found with error:" v])%list.
Proof.
  rewrite findCreditsRecord_unfold. cbv zeta.
  destruct (outcome (findCreditsRecords this [A] unspent nonces osp s))
    as [[[|x l]|e']|t]; cbn [outcome trace]; intros H;
    try discriminate H; injection H as <-.
  - split; [reflexivity|]. exists (inl []). eauto.
  - split; [reflexivity|]. exists (inr e'). eauto.
Qed.

(** X9: when a search asks for the chain tip and that promise is rejected,
    the search is rejected with the same value; it makes no query and writes
    nothing to the console. *)
Theorem X9_rejected_lookup_propagates this amounts unspent nonces osp s t s' :
  lookups (trace (findCreditsRecords this amounts unspent nonces osp s)) <> 0 ->
  getLatestHeight (networkClient this) s = (Rejected t, s') ->
  findCreditsRecords this amounts unspent nonces osp s
  = mkRun (Rejected t) s' [CallGetLatestHeight].
Proof.
  intros Hl Hg.
  destruct osp as [sp|].
  - pose proof (calls_with_params this amounts unspent nonces sp s) as Hc.
    cbv zeta in Hc.
    destruct (suppliesEndHeight sp) eqn:Hsp.
    + destruct Hc as [Hc _]. contradiction.
    + pose proof (resolveHeights_fallback this sp s Hsp) as E.
      rewrite Hg in E. run_query E. reflexivity.
  - destruct (findCreditsRecords_without_params this amounts unspent nonces s)
      as [H0 _]. contradiction.
Qed.

(** X10: whatever its arguments, a batch search calls the network client at
    least once and at most twice: at most one chain-tip lookup and at most
    one query, the lookup first. *)
Theorem X10_network_round_trips this amounts unspent nonces osp s :
  let t := trace (findCreditsRecords this amounts unspent nonces osp s) in
  network_calls t = (List.filter is_lookup t ++ queries t)%list /\
  lookups t <= 1 /\
  length (queries t) <= 1 /\
  1 <= length (network_calls t).
Proof.
  intros t; subst t.
  destruct (resolveHeights_cases this osp s)
    as [(_ & E)|[(sp & _ & _ & E)|[(sp & h & s' & _ & _ & _ & E)|
        [(sp & e & s' & _ & _ & _ & E)|(sp & t & s' & _ & _ & _ & E)]]]];
    run_query E; unfold lookups; simpl; repeat split; lia.
Qed.

(** X11: a search that resolves (with records or with an [Error] of the
    network client) writes nothing to the console, and so does a
    single-record search that returns a record. *)
Theorem X11_console_only_on_failure this amounts A unspent nonces osp s :
  (forall v,
      outcome (findCreditsRecords this amounts unspent nonces osp s) = Resolved v ->
      List.filter is_console
        (trace (findCreditsRecords this amounts unspent nonces osp s)) = []) /\
  (forall x,
      outcome (findCreditsRecord this A unspent nonces osp s) = Resolved (inl x) ->
      List.filter is_console
        (trace (findCreditsRecord this A unspent nonces osp s)) = []).
Proof.
  assert (Hb : forall amts v,
      outcome (findCreditsRecords this amts unspent nonces osp s) = Resolved v ->
      List.filter is_console
        (trace (findCreditsRecords this amts unspent nonces osp s)) = []).
  { intros amts v.
    destruct (resolveHeights_cases this osp s)
      as [(_ & E)|[(sp & _ & _ & E)|[(sp & h & s' & _ & _ & _ & E)|
          [(sp & e & s' & _ & _ & _ & E)|(sp & t & s' & _ & _ & _ & E)]]]];
      run_query E; intros H; try discriminate H; reflexivity. }
  split; [apply Hb|].
  intros x. rewrite findCreditsRecord_unfold. cbv zeta.
  destruct (outcome (findCreditsRecords this [A] unspent nonces osp s))
    as [[[|y l]|e]|t] eqn:E; cbn [outcome trace]; intros H;
    try discriminate H.
  rewrite app_nil_r. exact (Hb [A] _ E).
Qed.

(** X12: with search parameters, the chain-tip lookup is skipped exactly
    when [endHeight] holds a number other than 0 (and than [NaN]). *)
Theorem X12_lookup_skipped_iff this amounts unspent nonces sp s :
  lookups (trace (findCreditsRecords this amounts unspent nonces (Some sp) s)) = 0
  <-> exists z, get sp "endHeight" = VNumber (Num z) /\ z <> 0%Z.
Proof.
  rewrite <- suppliesEndHeight_spec.
  pose proof (calls_with_params this amounts unspent nonces sp s) as Hc.
  cbv zeta in Hc.
  destruct (suppliesEndHeight sp); destruct Hc as [Hc _]; rewrite Hc;
    split; congruence.
Qed.

(** Every query of a batch search asks for the amounts it was called with. *)
Lemma findCreditsRecords_asks this amounts unspent nonces osp s :
  Forall (asks_for (privateKey (account this)) amounts nonces)
    (trace (findCreditsRecords this amounts unspent nonces osp s)).
Proof.
  destruct (resolveHeights_cases this osp s)
    as [(_ & E)|[(sp & _ & _ & E)|[(sp & h & s' & _ & _ & _ & E)|
        [(sp & e & s' & _ & _ & _ & E)|(sp & t & s' & _ & _ & _ & E)]]]];
    run_query E; repeat constructor.
Qed.

(** X13: [findCreditsRecord] for the amount [A] makes at most one query, and
    that query asks for the one amount [A], with the private key of the
    account, no program filter and the nonces of the caller. *)
Theorem X13_single_search_query this A unspent nonces osp s :
  let t := trace (findCreditsRecord this A unspent nonces osp s) in
  Forall (asks_for (privateKey (account this)) [A] nonces) t /\
  length (queries t) <= 1.
Proof.
  intros t; subst t. split.
  - rewrite findCreditsRecord_unfold. cbv zeta.
    pose proof (findCreditsRecords_asks this [A] unspent nonces osp s) as H.
    destruct (outcome (findCreditsRecords this [A] unspent nonces osp s))
      as [[[|x l]|e]|t]; cbn [trace]; try apply Forall_app; auto;
      split; auto; repeat constructor.
  - destruct (findCreditsRecord_calls this A unspent nonces osp s) as [_ ->].
    destruct (resolveHeights_cases this osp s)
      as [(_ & E)|[(sp & _ & _ & E)|[(sp & h & s' & _ & _ & _ & E)|
          [(sp & e & s' & _ & _ & _ & E)|(sp & t & s' & _ & _ & _ & E)]]]];
      run_query E; simpl; lia.
Qed.

(** X15: a rejection of the record query is not caught: when the heights are
    resolved and the promise of [findUnspentRecords] is rejected,
    [findCreditsRecords] and [findCreditsRecord] are rejected with the same
    value, and [findCreditsRecord] writes nothing to the console. *)
Theorem X15_query_rejection_propagates this A unspent nonces osp s sH eH t s' :
  outcome (resolveHeights this osp s) = Resolved (sH, eH) ->
  findUnspentRecords (networkClient this) sH eH (privateKey (account this)) [A]
    VUndefined nonces (final (resolveHeights this osp s)) = (Rejected t, s') ->
  outcome (findCreditsRecords this [A] unspent nonces osp s) = Rejected t /\
  findCreditsRecord this A unspent nonces osp s
  = mkRun (Rejected t) s'
      (trace (findCreditsRecords this [A] unspent nonces osp s)) /\
  List.filter is_console (trace (findCreditsRecord this A unspent nonces osp s))
  = [].
Proof.
  intros Hr Hq.
  pose proof (findCreditsRecords_query this [A] unspent nonces osp s sH eH Hr) as E.
  cbv zeta in E. rewrite Hq in E. cbn [fst snd] in E.
  rewrite findCreditsRecord_unfold. cbv zeta. rewrite E. cbn [outcome final trace].
  split; [reflexivity|]. split; [reflexivity|].
  destruct (resolveHeights_cases this osp s)
    as [(_ & E0)|[(sp & _ & _ & E0)|[(sp & h & s0 & _ & _ & _ & E0)|
        [(sp & e & s0 & _ & _ & _ & E0)|(sp & t0 & s0 & _ & _ & _ & E0)]]]];
    rewrite E0 in *; try discriminate Hr; reflexivity.
Qed.

End SearchOutcomes.

(** ** The key locators *)

(** X14: every entry of [CREDITS_PROGRAM_KEYS] locates its prover key under
    [KEY_STORE], as [KEY_STORE + "<function>.prover."] and a suffix, and its
    verifier key likewise, but for [transfer_public], whose verifier is the
    bare file name without [KEY_STORE]. *)
Theorem X14_credits_key_locators (name : string) (k : KeyLocators) :
  keysOf CREDITS_PROGRAM_KEYS name = Some k ->
  String.prefix (KEY_STORE ++ name ++ ".prover.") (prover k) = true /\
  String.prefix (if String.eqb name "transfer_public"
                 then name ++ ".verifier."
                 else KEY_STORE ++ name ++ ".verifier.") (verifier k) = true /\
  (String.prefix KEY_STORE (verifier k) = false <-> name = "transfer_public").
Proof.
  unfold CREDITS_PROGRAM_KEYS. cbn [keysOf]. intros H.
  repeat match type of H with
  | (if String.eqb ?n name then _ else _) = _ =>
      destruct (String.eqb_spec n name) as [<-|?];
      [injection H as <-; vm_compute; repeat split; congruence|]
  end.
  discriminate H.
Qed.

(** ** The further properties on the test double *)

(** X2 at [{startHeight: 10}] and a chain tip of 100. *)
Lemma X2_startHeight_needs_numeric_endHeight_witness :
  trace (findCreditsRecords Mock.provider [Num 5000] true (Some [])
           (Some {["startHeight" := VNumber (Num 10)]}) Mock.net100)
  = [CallGetLatestHeight;
     CallFindUnspentRecords (VNumber (Num 0)) (VNumber (Num 100))
       (privateKey (account Mock.provider)) [Num 5000] VUndefined (Some [])].
Proof.
  apply (X2_startHeight_needs_numeric_endHeight Mock.provider [Num 5000] true
           (Some []) {["startHeight" := VNumber (Num 10)]} Mock.net100
           (Num 100) Mock.net100).
  - vm_compute. discriminate.
  - reflexivity.
Defined.

(** X3 at [{startHeight: 30, endHeight: 20}]: the window is passed on as it
    is. *)
Lemma X3_explicit_window_witness :
  let r := findCreditsRecords Mock.provider [Num 5000] true (Some [])
             (Some (BlockHeightSearch (Num 30) (Num 20))) Mock.net100 in
  trace r
  = [CallFindUnspentRecords (VNumber (Num 30)) (VNumber (Num 20))
       (privateKey (account Mock.provider)) [Num 5000] VUndefined (Some [])] /\
  (outcome r, final r)
  = findUnspentRecords (networkClient Mock.provider) (VNumber (Num 30))
      (VNumber (Num 20)) (privateKey (account Mock.provider)) [Num 5000]
      VUndefined (Some []) Mock.net100.
Proof.
  apply (X3_explicit_window Mock.provider [Num 5000] true (Some [])
           (BlockHeightSearch (Num 30) (Num 20)) Mock.net100 (Num 30) (Num 20)).
  - vm_compute. reflexivity.
  - vm_compute. reflexivity.
  - discriminate.
  - discriminate.
  - discriminate.
Defined.


(** X6 at [BlockHeightSearch(10, 0)] and a chain tip of 100. *)
Lemma X6_BlockHeightSearch_zero_end_witness :
  let r := findCreditsRecords Mock.provider [Num 5000] true (Some [])
             (Some (BlockHeightSearch (Num 10) (Num 0))) Mock.net100 in
  trace r
  = [CallGetLatestHeight;
     CallFindUnspentRecords (VNumber (Num 10)) (VNumber (Num 100))
       (privateKey (account Mock.provider)) [Num 5000] VUndefined (Some [])] /\
  (outcome r, final r)
  = findUnspentRecords (networkClient Mock.provider) (VNumber (Num 10))
      (VNumber (Num 100)) (privateKey (account Mock.provider)) [Num 5000]
      VUndefined (Some []) Mock.net100.
Proof.
  apply (X6_BlockHeightSearch_zero_end Mock.provider [Num 5000] true (Some [])
           Mock.net100 (Num 10) (Num 100) Mock.net100).
  - discriminate.
  - reflexivity.
Defined.

(** X7 with a key [amount] added to [BlockHeightSearch(10, 20)]. *)
Lemma X7_other_keys_ignored_witness :
  let sp := BlockHeightSearch (Num 10) (Num 20) in
  let sp' : gmap string value := <["amount" := VNumber (Num 5000)]> sp in
  findCreditsRecords Mock.provider [Num 5000] true (Some []) (Some sp) Mock.net100
  = findCreditsRecords Mock.provider [Num 5000] true (Some []) (Some sp')
      Mock.net100 /\
  findCreditsRecord Mock.provider (Num 5000) true (Some []) (Some sp) Mock.net100
  = findCreditsRecord Mock.provider (Num 5000) true (Some []) (Some sp')
      Mock.net100.
Proof.
  apply (X7_other_keys_ignored Mock.provider [Num 5000] (Num 5000) true (Some [])
           (BlockHeightSearch (Num 10) (Num 20))
           (<["amount" := VNumber (Num 5000)]>
              (BlockHeightSearch (Num 10) (Num 20))) Mock.net100).
  - vm_compute. reflexivity.
  - vm_compute. reflexivity.
Defined.

(** X8 on a client whose query answers [Error("insufficient records")]. *)
Lemma X8_upstream_error_normalised_witness :
  let this := mkProvider Mock.alice Mock.failing in
  mkError "Record not found" = mkError "Record not found" /\
  exists v,
    outcome (findCreditsRecords this [Num 5000] true (Some []) None Mock.net100)
    = Resolved v /\
    (v = inl [] \/ exists e', v = inr e') /\
    trace (findCreditsRecord this (Num 5000) true (Some []) None Mock.net100)
    = (trace (findCreditsRecords this [Num 5000] true (Some []) None Mock.net100)
       ++ [ConsoleError "Record not found with error:" v])%list.
Proof.
  apply (X8_upstream_error_normalised (mkProvider Mock.alice Mock.failing)
           (Num 5000) true (Some []) None Mock.net100
           (mkError "Record not found")).
  vm_compute. reflexivity.
Defined.

(** X9 on a client whose chain-tip lookup is rejected. *)
Lemma X9_rejected_lookup_propagates_witness :
  findCreditsRecords (mkProvider Mock.alice Mock.unreachable) [Num 5000] true
    (Some []) (Some ∅) Mock.net100
  = mkRun (Rejected (ThrownError (mkError "connection refused"))) Mock.net100
      [CallGetLatestHeight].
Proof.
  apply (X9_rejected_lookup_propagates (mkProvider Mock.alice Mock.unreachable)
           [Num 5000] true (Some []) (Some ∅) Mock.net100
           (ThrownError (mkError "connection refused")) Mock.net100).
  - vm_compute. discriminate.
  - reflexivity.
Defined.

(** X11 on a search that finds its records. *)
Lemma X11_console_only_on_failure_witness :
  List.filter is_console
    (trace (findCreditsRecords Mock.provider [Num 5000] true (Some []) None
              Mock.net100)) = [] /\
  List.filter is_console
    (trace (findCreditsRecord Mock.provider (Num 5000) true (Some []) None
              Mock.net100)) = [].
Proof.
  destruct (X11_console_only_on_failure Mock.provider [Num 5000] (Num 5000) true
              (Some []) None Mock.net100) as [Hb Hs].
  split.
  - apply (Hb (inl [Mock.r1; Mock.r2])). vm_compute. reflexivity.
  - apply (Hs Mock.r1). vm_compute. reflexivity.
Defined.

(** X12 in both directions, at [BlockHeightSearch(10, 20)]. *)
Lemma X12_lookup_skipped_iff_witness :
  let sp := BlockHeightSearch (Num 10) (Num 20) in
  lookups (trace (findCreditsRecords Mock.provider [Num 5000] true (Some [])
                    (Some sp) Mock.net100)) = 0 /\
  exists z, get sp "endHeight" = VNumber (Num z) /\ z <> 0%Z.
Proof.
  pose proof (X12_lookup_skipped_iff Mock.provider [Num 5000] true (Some [])
                (BlockHeightSearch (Num 10) (Num 20)) Mock.net100) as [H1 H2].
  split.
  - apply H2. exists 20%Z. split; [vm_compute; reflexivity|lia].
  - apply H1. vm_compute. reflexivity.
Defined.

(** X14 at the entry [join]. *)
Lemma X14_credits_key_locators_witness :
  let k := mkKeys "https://testnet3.parameters.aleo.org/join.prover.da05baf"
             "https://testnet3.parameters.aleo.org/join.verifier.1489109" in
  String.prefix (KEY_STORE ++ "join" ++ ".prover.") (prover k) = true /\
  String.prefix (if String.eqb "join" "transfer_public"
                 then "join" ++ ".verifier."
                 else KEY_STORE ++ "join" ++ ".verifier.") (verifier k) = true /\
  (String.prefix KEY_STORE (verifier k) = false <-> "join" = "transfer_public").
Proof.
  apply (X14_credits_key_locators "join"
           (mkKeys "https://testnet3.parameters.aleo.org/join.prover.da05baf"
              "https://testnet3.parameters.aleo.org/join.verifier.1489109")).
  vm_compute. reflexivity.
Defined.

(** X15 on a client whose record query is rejected. *)
Lemma X15_query_rejection_propagates_witness :
  let this := mkProvider Mock.alice Mock.dropping in
  let t := ThrownError (mkError "socket hang up") in
  outcome (findCreditsRecords this [Num 5000] true (Some []) None Mock.net100)
  = Rejected t /\
  findCreditsRecord this (Num 5000) true (Some []) None Mock.net100
  = mkRun (Rejected t) Mock.net100
      (trace (findCreditsRecords this [Num 5000] true (Some []) None Mock.net100)) /\
  List.filter is_console
    (trace (findCreditsRecord this (Num 5000) true (Some []) None Mock.net100))
  = [].
Proof.
  apply (X15_query_rejection_propagates (mkProvider Mock.alice Mock.dropping)
           (Num 5000) true (Some []) None Mock.net100
           (VNumber (Num 0)) (VNumber (Num 0))
           (ThrownError (mkError "socket hang up")) Mock.net100).
  - reflexivity.
  - reflexivity.
Defined.

(** C9 on the test double: after [setAccount(bob)] the searches query with
    bob's key. *)
Lemma C9_setAccount_frame_witness :
  let this' := setAccount Mock.provider Mock.bob in
  queries (trace (findCreditsRecords this' [Num 5000] true (Some []) None
                    Mock.net100))
  = [CallFindUnspentRecords (VNumber (Num 0)) (VNumber (Num 0))
       "APrivateKey1bob" [Num 5000] VUndefined (Some [])] /\
  queries (trace (findCreditsRecord this' (Num 5000) true (Some []) None
                    Mock.net100))
  = [CallFindUnspentRecords (VNumber (Num 0)) (VNumber (Num 0))
       "APrivateKey1bob" [Num 5000] VUndefined (Some [])].
Proof.
  destruct (C9_setAccount_frame Mock.provider Mock.bob [Num 5000] (Num 5000)
              true (Some []) None Mock.net100) as (_ & _ & _ & _ & H).
  exact H.
Defined.
